(** * Backstage demo: container packaging and topology, verified

    The repository holds no program of its own: it holds a root [Dockerfile],
    a Cypress configuration, and a guide whose code blocks are two more
    Dockerfiles, a [docker-compose.yml], three versions of the application
    configuration and the [docker] / [gcloud] command lines.

    Each artefact is embedded as the data it is (instruction lists, YAML
    trees, argument vectors). What is proved is what these texts decide:
    the stages and instructions of a Dockerfile, the commands a [RUN] line
    runs under [&&] and [||] of the shell, the keys of the compose and
    configuration files and the arguments of the command lines. What the
    Docker engine, the registry or the Backstage server do at run time
    (how a configuration is loaded, when a container is restarted, what a
    volume keeps) is not modelled. *)

From Stdlib Require Import NArith Bool Lia Ascii String.
From stdpp Require Import base strings list.

#[local] Set Warnings "-register-all".
Local Open Scope string_scope.
Local Open Scope list_scope.

(** ** Text helpers *)

Module Text.

Definition is_digit (c : ascii) : bool :=
  let n := N_of_ascii c in (48 <=? n)%N && (n <=? 57)%N.

Definition digit_value (c : ascii) : N := (N_of_ascii c - 48)%N.

(** Longest prefix of decimal digits, read as a number, and the rest. *)
Fixpoint read_digits (acc : N) (s : string) : N * string :=
  match s with
  | String c s' =>
      if is_digit c then read_digits (10 * acc + digit_value c)%N s'
      else (acc, s)
  | EmptyString => (acc, s)
  end.

(** A whole string of decimal digits. *)
Definition parse_dec (s : string) : option N :=
  match s with
  | EmptyString => None
  | String c _ =>
      if is_digit c then
        match read_digits 0 s with
        | (n, EmptyString) => Some n
        | _ => None
        end
      else None
  end.

(** Cut [s] at the first occurrence of [sep]: the text before it and,
    when [sep] occurs, the text after it. *)
Fixpoint cut (sep : ascii) (s : string) : string * option string :=
  match s with
  | EmptyString => (EmptyString, None)
  | String c s' =>
      if Ascii.eqb c sep then (EmptyString, Some s')
      else let '(a, b) := cut sep s' in (String c a, b)
  end.

(** All the fields of [s] between occurrences of [sep]. *)
Fixpoint split (sep : ascii) (s : string) : list string :=
  match s with
  | EmptyString => [EmptyString]
  | String c s' =>
      if Ascii.eqb c sep then EmptyString :: split sep s'
      else match split sep s' with
           | f :: fs => String c f :: fs
           | [] => [String c EmptyString]
           end
  end.

Fixpoint drop_prefix (p s : string) : option string :=
  match p, s with
  | EmptyString, _ => Some s
  | String a p', String b s' =>
      if Ascii.eqb a b then drop_prefix p' s' else None
  | String _ _, EmptyString => None
  end.

Definition starts_with (p s : string) : bool :=
  match drop_prefix p s with Some _ => true | None => false end.

Definition mem (x : string) (l : list string) : bool :=
  existsb (String.eqb x) l.

End Text.

(** ** Shell command lists

    What follows [RUN] in shell form is an and-or list: simple commands
    joined by [&&] and [||], which have the same precedence and associate
    to the left; a parenthesised list is a command of its own. *)

Module Shell.

Inductive connective := AndIf | OrIf.

Inductive command :=
| Simple (argv : list string)
| AndOr (first : command) (rest : list (connective * command)).

(** The outcome of the [n]-th simple command that is executed: the
    network, the registry and the file system decide it, not the
    Dockerfile. *)
Definition outcomes := nat -> bool.

Record run := Run {
  status : bool;                 (* exit status 0 *)
  trace : list (list string);    (* simple commands executed, in order *)
  next : nat                     (* simple commands executed so far *)
}.

Definition continue (op : connective) (ok : bool) : bool :=
  match op with
  | AndIf => ok
  | OrIf => negb ok
  end.

Fixpoint exec (o : outcomes) (c : command) (n : nat) : run :=
  match c with
  | Simple argv => Run (o n) [argv] (S n)
  | AndOr first rest =>
      (fix go (rest : list (connective * command)) (r : run) : run :=
         match rest with
         | [] => r
         | (op, c') :: tl =>
             if continue op (status r) then
               let r' := exec o c' (next r) in
               go tl (Run (status r') (trace r ++ trace r') (next r'))
             else go tl r
         end) rest (exec o first n)
  end.

(** Every simple command written in [c], executed or not. *)
Fixpoint simple_commands (c : command) : list (list string) :=
  match c with
  | Simple argv => [argv]
  | AndOr first rest =>
      simple_commands first ++
      (fix go (rest : list (connective * command)) : list (list string) :=
         match rest with
         | [] => []
         | (_, c') :: tl => simple_commands c' ++ go tl
         end) rest
  end.

Definition invokes (prog : string) (argv : list string) : bool :=
  match argv with
  | p :: _ => String.eqb p prog
  | [] => false
  end.


(** The command a word of the form [$(...)] names. The shell runs it to
    make the argument; its exit status is not that of the simple command
    the word belongs to, which is the status of the program run with the
    argument. *)
Definition substitution (word : string) : option (list string) :=
  match Text.drop_prefix "$(" word with
  | Some rest =>
      match Text.cut ")" rest with
      | (inner, Some _) => Some (Text.split " " inner)
      | (_, None) => None
      end
  | None => None
  end.

Definition substitutions (argv : list string) : list (list string) :=
  omap substitution argv.


End Shell.

(** ** Yarn invocations *)

Module Yarn.

Definition is_install (argv : list string) : bool :=
  match argv with
  | y :: i :: _ => String.eqb y "yarn" && String.eqb i "install"
  | _ => false
  end.

(** [--frozen-lockfile]: install exactly what yarn.lock records, and fail
    rather than resolve anything anew. *)
Definition frozen (argv : list string) : bool :=
  Text.mem "--frozen-lockfile" argv.


Definition pinned (argv : list string) : bool :=
  negb (is_install argv) || frozen argv.

End Yarn.

(** ** Dockerfiles *)

Module Docker.

Inductive instruction :=
| FROM (image : string) (alias : option string)
| RUN (c : Shell.command)
| WORKDIR (path : string)
| COPY (from : option string) (sources : list string) (dest : string)
| USER (name : string)
| ENV (key value : string)
| EXPOSE (port : N)
| CMD (argv : list string)
| ENTRYPOINT (argv : list string).

Definition dockerfile := list instruction.

Record stage := Stage {
  base : string;
  alias : option string;
  body : list instruction
}.

(** A stage runs from one [FROM] to the next. *)
Fixpoint stages_from (cur : option stage) (df : dockerfile) : list stage :=
  match df with
  | [] => match cur with Some s => [s] | None => [] end
  | FROM image al :: tl =>
      match cur with
      | Some s => s :: stages_from (Some (Stage image al [])) tl
      | None => stages_from (Some (Stage image al [])) tl
      end
  | i :: tl =>
      match cur with
      | Some s => stages_from (Some (Stage (base s) (alias s) (body s ++ [i]))) tl
      | None => stages_from None tl
      end
  end.

Definition stages (df : dockerfile) : list stage := stages_from None df.

(** The image that is tagged is the one of the last stage. *)
Definition final_stage (df : dockerfile) : option stage := last (stages df).

Definition build_stages (df : dockerfile) : list stage :=
  removelast (stages df).

Definition stage_commands (s : stage) : list (list string) :=
  flat_map (fun i => match i with
                     | RUN c => Shell.simple_commands c
                     | _ => []
                     end) (body s).

(** [COPY --from=<stage>] instructions of a stage: stage, sources, target. *)
Definition imports (s : stage) : list (string * list string * string) :=
  flat_map (fun i => match i with
                     | COPY (Some a) srcs d => [(a, srcs, d)]
                     | _ => []
                     end) (body s).

(** The working directory in force at the end of a stage. *)
Definition workdir (s : stage) : option string :=
  fold_left (fun w i => match i with WORKDIR p => Some p | _ => w end)
            (body s) None.

(** The account the container process runs as: the last [USER] of the
    final stage, and the base image's account when there is none. *)
Definition stage_user (s : stage) : option string :=
  fold_left (fun u i => match i with USER n => Some n | _ => u end)
            (body s) None.

Definition run_as (base_user : string) (df : dockerfile) : string :=
  match final_stage df with
  | Some s => match stage_user s with Some u => u | None => base_user end
  | None => base_user
  end.



Definition exposed (df : dockerfile) : list N :=
  match final_stage df with
  | Some s => flat_map (fun i => match i with EXPOSE p => [p] | _ => [] end)
                       (body s)
  | None => []
  end.

End Docker.

Import Docker.
Import Shell.

(** *** The repository's root Dockerfile *)

Definition yarn_install_frozen : list string :=
  ["yarn"; "install"; "--frozen-lockfile"].

Definition yarn_build_backend_production : list string :=
  ["yarn"; "build:backend"; "--config"; "app-config.production.yaml"].

Definition Dockerfile : dockerfile := [
  FROM "node:20" None;
  WORKDIR "/app";
  COPY None ["package.json"; "yarn.lock"] "./";
  RUN (Simple yarn_install_frozen);
  COPY None ["."] ".";
  RUN (Simple yarn_build_backend_production);
  EXPOSE 7007;
  CMD ["yarn"; "start"]
].

(** *** The guide, step 3: packages/backend/Dockerfile *)

Definition apt_get_update : list string := ["apt-get"; "update"].

Definition apt_get_install_toolchain : list string :=
  ["apt-get"; "install"; "-y";
   "python3"; "g++"; "make"; "build-essential"; "libsqlite3-dev";
   "ca-certificates"; "curl"; "git"].

Definition rm_apt_lists : list string := ["rm"; "-rf"; "/var/lib/apt/lists/*"].

Definition yarn_install_production : list string :=
  ["yarn"; "install"; "--frozen-lockfile"; "--production"].

Definition yarn_tsc : list string := ["yarn"; "tsc"].

Definition yarn_build_backend : list string := ["yarn"; "build:backend"].

Definition chown_app : list string := ["chown"; "-R"; "node:node"; "/app"].

Definition packages_backend_Dockerfile : dockerfile := [
  FROM "node:20-bullseye-slim" (Some "build");
  RUN (AndOr (Simple apt_get_update)
         [(AndIf, Simple apt_get_install_toolchain);
          (AndIf, Simple rm_apt_lists)]);
  WORKDIR "/app";
  COPY None ["package.json"; "yarn.lock"] "./";
  RUN (Simple yarn_install_production);
  COPY None ["."] ".";
  RUN (AndOr (Simple yarn_tsc) [(AndIf, Simple yarn_build_backend)]);
  FROM "node:20-bullseye-slim" None;
  WORKDIR "/app";
  COPY (Some "build") ["/app"] "/app";
  RUN (Simple chown_app);
  USER "node";
  ENV "NODE_ENV" "production";
  EXPOSE 7007;
  ENTRYPOINT ["node"; "packages/backend"; "--config"; "app-config.yaml"]
].

(** *** The guide's updated Dockerfile *)

Definition apt_get_install_git : list string :=
  ["apt-get"; "install"; "-y"; "--fix-missing"; "git"].

Definition sleep_10 : list string := ["sleep"; "10"].

Definition yarn_install_first : list string :=
  ["yarn"; "install"; "--frozen-lockfile"; "--network-timeout"; "300000"].

Definition yarn_install_fallback : list string :=
  ["yarn"; "install"; "--network-timeout"; "300000"].

Definition yarn_install_runtime : list string :=
  ["yarn"; "install"; "--frozen-lockfile"; "--production";
   "--network-timeout"; "300000"].

(** The last word holds a command substitution: the shell runs
    [yarn cache dir] to make the argument, and the exit status of the
    simple command is that of [rm], whatever that of the substitution
    was. The word is kept as written, [Shell.substitutions] reads the
    command out of it; the outcomes of a build are those of its simple
    commands, and the substitution is not one of them. *)
Definition rm_yarn_cache : list string := ["rm"; "-rf"; "$(yarn cache dir)"].

Definition tar_skeleton : list string := ["tar"; "xzf"; "skeleton.tar.gz"].
Definition rm_skeleton : list string := ["rm"; "skeleton.tar.gz"].
Definition tar_bundle : list string := ["tar"; "xzf"; "bundle.tar.gz"].
Definition rm_bundle : list string := ["rm"; "bundle.tar.gz"].

(** The build stage's dependency install: a first attempt, [||] a second
    one, [&&] the removal of the cache. *)
Definition install_dependencies : command :=
  AndOr (Simple yarn_install_first)
    [(OrIf, Simple yarn_install_fallback);
     (AndIf, Simple rm_yarn_cache)].

Definition updated_Dockerfile : dockerfile := [
  FROM "node:20-bullseye-slim" (Some "build");
  RUN (AndOr (Simple apt_get_update)
         [(AndIf, Simple apt_get_install_toolchain);
          (AndIf, Simple apt_get_install_git);
          (OrIf, AndOr (Simple sleep_10) [(AndIf, Simple apt_get_install_git)]);
          (AndIf, Simple rm_apt_lists)]);
  WORKDIR "/app";
  COPY None ["package.json"; "yarn.lock"] "./";
  RUN install_dependencies;
  COPY None ["."] ".";
  FROM "node:20-bullseye-slim" None;
  WORKDIR "/app";
  COPY (Some "build") ["/app"] "/app";
  COPY (Some "build")
       ["/app/yarn.lock"; "/app/package.json";
        "/app/packages/backend/dist/skeleton.tar.gz"] "./";
  RUN (AndOr (Simple tar_skeleton) [(AndIf, Simple rm_skeleton)]);
  RUN (AndOr (Simple yarn_install_runtime) [(AndIf, Simple rm_yarn_cache)]);
  COPY (Some "build")
       ["/app/packages/backend/dist/bundle.tar.gz"; "/app/app-config*.yaml"] "./";
  RUN (AndOr (Simple tar_bundle) [(AndIf, Simple rm_bundle)]);
  RUN (Simple chown_app);
  USER "node";
  ENV "NODE_ENV" "production";
  EXPOSE 7007;
  ENV "BACKSTAGE_APP_PORT" "7007";
  ENV "POSTGRES_HOST" "postgres";
  ENV "POSTGRES_PORT" "5432";
  ENV "POSTGRES_USER" "backstage";
  ENV "POSTGRES_PASSWORD" "backstage";
  ENV "POSTGRES_DB" "backstage_plugin_app";
  ENTRYPOINT ["node"; "packages/backend"; "--config"; "app-config.yaml";
              "--config"; "app-config.production.yaml"]
].

(** The Dockerfiles an image of this repository is built from. *)
Definition dockerfiles : list dockerfile :=
  [Dockerfile; packages_backend_Dockerfile; updated_Dockerfile].

(** The two the guide gives. *)
Definition guide_dockerfiles : list dockerfile :=
  [packages_backend_Dockerfile; updated_Dockerfile].

(** ** YAML documents *)

Module Yaml.

Inductive yaml :=
| Null
| Scalar (s : string)
| Seq (items : list yaml)
| Map (entries : list (string * yaml)).

Fixpoint assoc {A} (k : string) (l : list (string * A)) : option A :=
  match l with
  | [] => None
  | (k', v) :: tl => if String.eqb k k' then Some v else assoc k tl
  end.

Definition get (k : string) (y : yaml) : option yaml :=
  match y with
  | Map es => assoc k es
  | _ => None
  end.

Fixpoint at_path (p : list string) (y : yaml) : option yaml :=
  match p with
  | [] => Some y
  | k :: p' => match get k y with
               | Some y' => at_path p' y'
               | None => None
               end
  end.

Definition keys (y : yaml) : list string :=
  match y with Map es => map fst es | _ => [] end.


(** The scalar items of a sequence. *)
Definition scalar_items (y : yaml) : list string :=
  match y with
  | Seq l => flat_map (fun i => match i with Scalar s => [s] | _ => [] end) l
  | _ => []
  end.

End Yaml.

Import Yaml.

(** *** The application configuration *)





(** *** docker-compose.yml (the guide gives it twice, word for word) *)

Definition docker_compose_yml : yaml :=
  Map [
    ("version", Scalar "3.8");
    ("services", Map [
      ("postgres", Map [
        ("image", Scalar "postgres:15");
        ("container_name", Scalar "backstage-db");
        ("restart", Scalar "always");
        ("environment", Map [
          ("POSTGRES_USER", Scalar "backstage");
          ("POSTGRES_PASSWORD", Scalar "backstage");
          ("POSTGRES_DB", Scalar "backstage_plugin_app")]);
        ("ports", Seq [Scalar "5432:5432"]);
        ("volumes", Seq [Scalar "postgres_data:/var/lib/postgresql/data"])]);
      ("backstage", Map [
        ("build", Scalar ".");
        ("container_name", Scalar "backstage-app");
        ("restart", Scalar "always");
        ("depends_on", Seq [Scalar "postgres"]);
        ("environment", Map [
          ("POSTGRES_HOST", Scalar "postgres");
          ("POSTGRES_PORT", Scalar "5432");
          ("POSTGRES_USER", Scalar "backstage");
          ("POSTGRES_PASSWORD", Scalar "backstage");
          ("POSTGRES_DB", Scalar "backstage_plugin_app")]);
        ("ports", Seq [Scalar "7007:7007"])])]);
    ("volumes", Map [("postgres_data", Null)])
  ].

(** *** cypress.config.ts *)

Inductive js :=
| JNum (n : N)
| JStr (s : string)
| JObj (fields : list (string * js))
| JFun.

Definition js_get (k : string) (v : js) : option js :=
  match v with JObj fs => assoc k fs | _ => None end.

Definition cypress_config : js :=
  JObj [
    ("viewportHeight", JNum 1080);
    ("viewportWidth", JNum 1920);
    ("e2e", JObj [
      ("baseUrl", JStr "http://localhost:3000/");
      ("specPattern", JStr "cypress/e2e/**/*.{js,jsx,ts,tsx}");
      ("setupNodeEvents", JFun)])
  ].

(** *** Command lines of the guide *)









(** ** Building an image

    The instructions run in the order written; a [RUN] whose command list
    exits non-zero stops the build, and so does a [FROM] whose image cannot
    be had or a [COPY] whose sources are not there (a missing lockfile, a
    missing archive). [build] is the build that finds all of these, where
    only the commands of the [RUN] lines can fail; [build_with] is the
    build in general. *)

Fixpoint build (o : outcomes) (df : dockerfile) (n : nat) : run :=
  match df with
  | [] => Run true [] n
  | RUN c :: tl =>
      let r := exec o c n in
      if status r then
        let r' := build o tl (next r) in
        Run (status r') (trace r ++ trace r') (next r')
      else r
  | _ :: tl => build o tl n
  end.

(** What a build finds outside its [RUN] lines: whether what the [i]-th
    instruction of the Dockerfile asks for, a base image or the files to
    copy, is there. *)
Definition inputs := nat -> bool.

Definition all_there : inputs := fun _ => true.


(** The build from the [i]-th instruction on, [n] commands having run. *)
Fixpoint build_with (s : inputs) (o : outcomes) (df : dockerfile) (i n : nat)
  : run :=
  match df with
  | [] => Run true [] n
  | RUN c :: tl =>
      let r := exec o c n in
      if status r then
        let r' := build_with s o tl (S i) (next r) in
        Run (status r') (trace r ++ trace r') (next r')
      else r
  | FROM _ _ :: tl | COPY _ _ _ :: tl =>
      if s i then build_with s o tl (S i) n else Run false [] n
  | _ :: tl => build_with s o tl (S i) n
  end.

(** The installs that went through, in order: the [yarn install]s of the
    trace that succeeded. The [k]-th command of a trace started at 0 has
    outcome [o k]. *)
Fixpoint installs_from (o : outcomes) (k : nat) (t : list (list string))
  : list (list string) :=
  match t with
  | [] => []
  | argv :: tl =>
      (if Yarn.is_install argv && o k then [argv] else [])
      ++ installs_from o (S k) tl
  end.

Definition installs_done (o : outcomes) (df : dockerfile) : list (list string) :=
  installs_from o 0 (trace (build o df 0)).

(** The install that filled node_modules last. *)
Definition last_install (o : outcomes) (df : dockerfile) : option (list string) :=
  last (installs_done o df).

(** Every step succeeds. *)
Definition all_ok : outcomes := fun _ => true.

(** Every step succeeds but the [k]-th. *)
Definition fails_at (k : nat) : outcomes := fun n => negb (n =? k)%nat.

(** ** Stage structure *)

Definition apt_install (argv : list string) : bool :=
  invokes "apt-get" argv && Text.mem "install" argv.

(** The final stage takes over the whole working directory of an earlier
    stage: source tree, node_modules and all. *)
Definition imports_whole_workdir (df : dockerfile) : bool :=
  match final_stage df with
  | Some f =>
      existsb (fun i : string * list string * string =>
        existsb (fun b : stage =>
          match alias b, workdir b with
          | Some a, Some w => String.eqb a (fst (fst i)) && Text.mem w (snd (fst i))
          | _, _ => false
          end) (build_stages df)) (imports f)
  | None => false
  end.

(** The build as the specification words it: two phases, what the first
    installs to compile stays behind, and the final stage takes only
    selected artefacts from it. *)
Definition two_phase_build (df : dockerfile) : bool :=
  (length (stages df) =? 2)%nat
  && existsb (fun b => existsb apt_install (stage_commands b)) (build_stages df)
  && match final_stage df with
     | Some f => negb (existsb apt_install (stage_commands f))
     | None => false
     end
  && negb (imports_whole_workdir df).

(** ** The build as a decision tree

    [exec_k] and [build_k] compute the same runs in continuation-passing
    style, asking for each outcome once; unfolded on a given Dockerfile
    they give the tree of its possible builds. *)

Fixpoint exec_k {R} (o : outcomes) (c : command) (n : nat) (k : run -> R) : R :=
  match c with
  | Simple argv =>
      if o n then k (Run true [argv] (S n)) else k (Run false [argv] (S n))
  | AndOr first rest =>
      exec_k o first n (fun r0 =>
        (fix go (rest : list (connective * command)) (r : run) : R :=
           match rest with
           | [] => k r
           | (op, c') :: tl =>
               if continue op (status r) then
                 exec_k o c' (next r) (fun r' =>
                   go tl (Run (status r') (trace r ++ trace r') (next r')))
               else go tl r
           end) rest r0)
  end.

Fixpoint build_k {R} (o : outcomes) (df : dockerfile) (n : nat) (k : run -> R) : R :=
  match df with
  | [] => k (Run true [] n)
  | RUN c :: tl =>
      exec_k o c n (fun r =>
        if status r then
          build_k o tl (next r) (fun r' =>
            k (Run (status r') (trace r ++ trace r') (next r')))
        else k r)
  | _ :: tl => build_k o tl n k
  end.

Fixpoint build_with_k {R} (s : inputs) (o : outcomes) (df : dockerfile)
    (i n : nat) (k : run -> R) : R :=
  match df with
  | [] => k (Run true [] n)
  | RUN c :: tl =>
      exec_k o c n (fun r =>
        if status r then
          build_with_k s o tl (S i) (next r) (fun r' =>
            k (Run (status r') (trace r ++ trace r') (next r')))
        else k r)
  | FROM _ _ :: tl | COPY _ _ _ :: tl =>
      if s i then build_with_k s o tl (S i) n k else k (Run false [] n)
  | _ :: tl => build_with_k s o tl (S i) n k
  end.

Section command_induction.
Variable P : command -> Prop.
Hypothesis Hsimple : forall argv, P (Simple argv).
Hypothesis Handor : forall first rest,
  P first -> Forall (fun p => P (snd p)) rest -> P (AndOr first rest).

Fixpoint command_induction (c : command) : P c :=
  match c with
  | Simple argv => Hsimple argv
  | AndOr first rest =>
      Handor first rest (command_induction first)
        ((fix go (rest : list (connective * command))
            : Forall (fun p => P (snd p)) rest :=
            match rest with
            | [] => List.Forall_nil _
            | p :: tl => List.Forall_cons _ p tl (command_induction (snd p)) (go tl)
            end) rest)
  end.
End command_induction.

(** The simple commands written in the [RUN]s of a Dockerfile. *)
Definition run_commands (df : dockerfile) : list (list string) :=
  flat_map (fun i => match i with
                     | RUN c => simple_commands c
                     | _ => []
                     end) df.

(** ** Dependency versions of two runs

    What an install puts into node_modules depends on the install's
    arguments and on the state of the registry when it runs; the sources
    (package.json, yarn.lock) are the same in both runs. *)

Inductive resolved :=
| FromLockfile
| FromRegistry (state : nat).

(** An installer whose frozen installs take the lockfile's versions and
    whose other installs take what the registry offers. *)
Definition follows_registry (w : nat) (argv : list string) : resolved :=
  if Yarn.frozen argv then FromLockfile else FromRegistry w.

Section Reproducibility.

Context {versions world : Type}.
Variable installs : world -> list string -> versions.

(** The versions each install that went through has put in place. *)
Definition installed (w : world) (o : outcomes) (df : dockerfile)
  : list versions :=
  map (installs w) (installs_done o df).

(** The versions in the image: those of the last install. *)
Definition dependencies (w : world) (o : outcomes) (df : dockerfile)
  : option versions :=
  option_map (installs w) (last_install o df).

End Reproducibility.

(** What a stage copies from the build context. *)
Definition context_copies (s : stage) : list (list string) :=
  flat_map (fun i => match i with
                     | COPY None srcs _ => [srcs]
                     | _ => []
                     end) (body s).

(** ** The two-service topology *)

Definition service_key (name key : string) : option yaml :=
  at_path ["services"; name; key] docker_compose_yml.



(** ** The connection parameters as the configuration files give them *)





(** ** The managed target *)


(** ** Which Dockerfile a build reads *)





(** ** Ports *)

Module Url.

(** The port of [scheme://host[:port][/path]]; the scheme's own port
    when none is written. *)
Definition port (u : string) : option N :=
  match Text.cut ":" u with
  | (scheme, Some rest) =>
      match Text.drop_prefix "//" rest with
      | Some r =>
          match Text.cut ":" (fst (Text.cut "/" r)) with
          | (_, Some p) => Text.parse_dec p
          | (_, None) =>
              if String.eqb scheme "http" then Some 80%N
              else if String.eqb scheme "https" then Some 443%N
              else None
          end
      | None => None
      end
  | (_, None) => None
  end.

Definition host (u : string) : option string :=
  match Text.cut ":" u with
  | (_, Some rest) =>
      match Text.drop_prefix "//" rest with
      | Some r => Some (fst (Text.cut ":" (fst (Text.cut "/" r))))
      | None => None
      end
  | (_, None) => None
  end.

End Url.

(** The [ports] of a service, each [host:container]. *)
Definition published (name : string) : list (N * N) :=
  match service_key name "ports" with
  | Some y =>
      flat_map (fun p => match Text.cut ":" p with
                         | (h, Some c) =>
                             match Text.parse_dec h, Text.parse_dec c with
                             | Some a, Some b => [(a, b)]
                             | _, _ => []
                             end
                         | (_, None) => []
                         end) (scalar_items y)
  | None => []
  end.

Definition services : list string :=
  match at_path ["services"] docker_compose_yml with
  | Some y => keys y
  | None => []
  end.

(** The host ports the topology listens on. *)
Definition host_ports : list N := map fst (flat_map published services).

Definition baseUrl : option string :=
  match js_get "e2e" cypress_config with
  | Some e => match js_get "baseUrl" e with
              | Some (JStr u) => Some u
              | _ => None
              end
  | None => None
  end.

(** ** Command lists joined by [&&] only *)

Fixpoint and_only (c : command) : bool :=
  match c with
  | Simple _ => true
  | AndOr first rest =>
      and_only first
      && (fix go (rest : list (connective * command)) : bool :=
            match rest with
            | [] => true
            | (AndIf, c') :: tl => and_only c' && go tl
            | (OrIf, _) :: _ => false
            end) rest
  end.

Definition and_only_dockerfile (df : dockerfile) : bool :=
  forallb (fun i => match i with RUN c => and_only c | _ => true end) df.


(** The first [RUN] of the updated Dockerfile. *)
Definition install_toolchain : command :=
  AndOr (Simple apt_get_update)
    [(AndIf, Simple apt_get_install_toolchain);
     (AndIf, Simple apt_get_install_git);
     (OrIf, AndOr (Simple sleep_10) [(AndIf, Simple apt_get_install_git)]);
     (AndIf, Simple rm_apt_lists)].

(** * Properties *)

(** ** Executions of a command list and of a build *)

Lemma exec_k_exec {R} (o : outcomes) (c : command) :
  forall n (k : run -> R), exec_k o c n k = k (exec o c n).
Proof.
  induction c as [argv | first rest IHfirst IHrest] using command_induction;
    intros n k.
  - simpl. destruct (o n); reflexivity.
  - simpl. rewrite IHfirst.
    generalize (exec o first n) as r.
    induction IHrest as [| [op c'] tl Hc' _ IHtl]; intros r.
    + reflexivity.
    + simpl in Hc'. destruct (continue op (status r)).
      * rewrite Hc'. apply IHtl.
      * apply IHtl.
Qed.

Lemma build_k_build {R} (o : outcomes) (df : dockerfile) :
  forall n (k : run -> R), build_k o df n k = k (build o df n).
Proof.
  induction df as [| i tl IH]; intros n k.
  - reflexivity.
  - destruct i; simpl; try apply IH.
    rewrite exec_k_exec. destruct (status (exec o c n)).
    + rewrite IH. reflexivity.
    + reflexivity.
Qed.

(** What is executed was written. *)
Lemma exec_trace_written (o : outcomes) (c : command) :
  forall n argv, In argv (trace (exec o c n)) -> In argv (simple_commands c).
Proof.
  induction c as [a | first rest IHfirst IHrest] using command_induction;
    intros n argv.
  - simpl. tauto.
  - simpl. intros H. apply in_or_app.
    assert (G : forall r,
      In argv (trace
        ((fix go (rest : list (connective * command)) (r : run) : run :=
            match rest with
            | [] => r
            | (op, c') :: tl =>
                if continue op (status r) then
                  let r' := exec o c' (next r) in
                  go tl (Run (status r') (trace r ++ trace r') (next r'))
                else go tl r
            end) rest r)) ->
      In argv (trace r) \/
      In argv
        ((fix go (rest : list (connective * command)) : list (list string) :=
            match rest with
            | [] => []
            | (_, c') :: tl => simple_commands c' ++ go tl
            end) rest)).
    { clear H. induction IHrest as [| [op c'] tl Hc' _ IHtl]; intros r Hr.
      - left. exact Hr.
      - simpl in Hc'. destruct (continue op (status r)).
        + apply IHtl in Hr. simpl in Hr. destruct Hr as [Hr | Hr].
          * apply in_app_or in Hr. destruct Hr as [Hr | Hr].
            -- left. exact Hr.
            -- right. apply in_or_app. left. eapply Hc'. exact Hr.
          * right. apply in_or_app. right. exact Hr.
        + apply IHtl in Hr. destruct Hr as [Hr | Hr].
          * left. exact Hr.
          * right. apply in_or_app. right. exact Hr. }
    apply G in H. destruct H as [H | H].
    + left. eapply IHfirst. exact H.
    + right. exact H.
Qed.

Lemma build_trace_written (o : outcomes) (df : dockerfile) :
  forall n argv, In argv (trace (build o df n)) -> In argv (run_commands df).
Proof.
  induction df as [| i tl IH]; intros n argv.
  - simpl. tauto.
  - destruct i; simpl; try apply IH.
    intros H. apply in_or_app.
    destruct (status (exec o c n)).
    + simpl in H. apply in_app_or in H. destruct H as [H | H].
      * left. eapply exec_trace_written. exact H.
      * right. eapply IH. exact H.
    + left. eapply exec_trace_written. exact H.
Qed.

Lemma build_cases (P : run -> Prop) (o : outcomes) (df : dockerfile) (n : nat) :
  build_k o df n P -> P (build o df n).
Proof. rewrite build_k_build. trivial. Qed.



(** With every input there, the build is the one in which only commands
    fail. *)
Lemma build_with_all_there (o : outcomes) (df : dockerfile) :
  forall i n, build_with all_there o df i n = build o df n.
Proof.
  induction df as [| ins tl IH]; intros i n.
  - reflexivity.
  - destruct ins; simpl; try apply IH.
    rewrite IH. reflexivity.
Qed.

(** A build is the build in which only commands fail, or it has stopped at
    an instruction whose input is missing, every [RUN] before it having
    succeeded. *)
Lemma build_with_stops (s : inputs) (o : outcomes) (df : dockerfile) :
  forall i n,
    build_with s o df i n = build o df n
    \/ exists pre post,
         df = pre ++ post
         /\ status (build o pre n) = true
         /\ build_with s o df i n
            = Run false (trace (build o pre n)) (next (build o pre n)).
Proof.
  induction df as [| ins tl IH]; intros i n.
  - left. reflexivity.
  - assert (Hskip : forall n',
      build_with s o tl (S i) n' = build o tl n'
      \/ exists pre post,
           ins :: tl = (ins :: pre) ++ post
           /\ status (build o pre n') = true
           /\ build_with s o tl (S i) n'
              = Run false (trace (build o pre n')) (next (build o pre n'))).
    { intros n'. destruct (IH (S i) n') as [H | (pre & post & Hdf & Hs & Hb)].
      - left. exact H.
      - right. exists pre, post. subst tl. repeat split; assumption. }
    assert (Hstop :
      exists pre post,
        ins :: tl = pre ++ post
        /\ status (build o pre n) = true
        /\ Run false [] n
           = Run false (trace (build o pre n)) (next (build o pre n))).
    { exists [], (ins :: tl). repeat split. }
    destruct ins; simpl;
      try (destruct (Hskip n) as [H | (pre & post & Hdf & Hs & Hb)];
           [left; exact H
           | right; eexists (_ :: pre), post;
             split; [exact Hdf | split; [exact Hs | exact Hb]]]).
    + destruct (s i); [| right; exact Hstop].
      destruct (Hskip n) as [H | (pre & post & Hdf & Hs & Hb)];
        [left; exact H |].
      right. eexists (_ :: pre), post.
      split; [exact Hdf | split; [exact Hs | exact Hb]].
    + destruct (status (exec o c n)) eqn:E; [| left; reflexivity].
      destruct (Hskip (next (exec o c n)))
        as [H | (pre & post & Hdf & Hs & Hb)].
      * left. rewrite H. reflexivity.
      * right. exists (RUN c :: pre), post.
        split; [exact Hdf |]. simpl. rewrite E, Hb. simpl.
        split; [exact Hs | reflexivity].
    + destruct (s i); [| right; exact Hstop].
      destruct (Hskip n) as [H | (pre & post & Hdf & Hs & Hb)];
        [left; exact H |].
      right. eexists (_ :: pre), post.
      split; [exact Hdf | split; [exact Hs | exact Hb]].
Qed.

Lemma build_with_finished (s : inputs) (o : outcomes) (df : dockerfile) (i n : nat) :
  status (build_with s o df i n) = true ->
  build_with s o df i n = build o df n.
Proof.
  destruct (build_with_stops s o df i n) as [H | (pre & post & _ & _ & H)].
  - intros _. exact H.
  - rewrite H. discriminate.
Qed.

Lemma written_property (P : list string -> bool) (df : dockerfile) :
  forallb P (run_commands df) = true ->
  forall o n, Forall (fun argv => P argv = true) (trace (build o df n)).
Proof.
  intros HP o n. apply List.Forall_forall. intros argv Hin.
  apply build_trace_written in Hin.
  rewrite forallb_forall in HP. apply HP. exact Hin.
Qed.

(** Follow a build along each of its paths. *)
Ltac build_tree :=
  cbv beta iota zeta delta
    [build_k build_with_k exec_k continue status trace next Datatypes.app
     negb install_dependencies].

Ltac split_outcomes o :=
  repeat match goal with
         | |- context [if o ?n then _ else _] =>
             let E := fresh "E" in destruct (o n) eqn:E
         end.

Ltac build_paths o df :=
  match goal with
  | |- context [build o df 0] =>
      pattern (build o df 0); apply build_cases;
      unfold df; build_tree; split_outcomes o
  end.



(** Case analysis on an index into a trace that is known. *)
Ltac scan_trace H k :=
  repeat (destruct k as [| k];
          [ vm_compute in H; try discriminate H
          | cbn [lookup list_lookup] in H; try discriminate H ]).

Ltac use_outcomes o :=
  repeat match goal with
         | E : o _ = _ |- _ => rewrite E in *; clear E
         end.

(** ** Command lists joined by [&&] only *)







Lemma root_and_guide_join_with_and_only :
  and_only_dockerfile Dockerfile = true
  /\ and_only_dockerfile packages_backend_Dockerfile = true
  /\ and_only_dockerfile updated_Dockerfile = false.
Proof. repeat split; reflexivity. Qed.




(** ** C1: where the connection parameters come from *)



(** ** C2: stages *)

(** C2, as stated, fails: the root Dockerfile has a single stage, and the
    final stage of both Dockerfiles of the guide copies the build stage's
    whole working directory, so no Dockerfile of the repository is a
    two-phase build in the stated sense. *)
Lemma not_every_build_two_phase :
  In Dockerfile dockerfiles
  /\ length (stages Dockerfile) = 1
  /\ imports_whole_workdir packages_backend_Dockerfile = true
  /\ imports_whole_workdir updated_Dockerfile = true
  /\ map two_phase_build dockerfiles = [false; false; false].
Proof.
  split; [left; reflexivity |].
  repeat split; vm_compute; reflexivity.
Qed.

(** C2, amended: each Dockerfile of the guide has two stages. The first,
    named build, works in /app and installs the OS toolchain with apt-get.
    The final one starts again from node:20-bullseye-slim, runs no apt-get,
    copies nothing from the build context, and takes from the build stage
    only paths under /app, the first of them /app itself, whole. *)
Theorem guide_builds_two_stage (df : dockerfile) :
  In df guide_dockerfiles ->
  exists b f,
    stages df = [b; f]
    /\ alias b = Some "build"
    /\ workdir b = Some "/app"
    /\ In apt_get_install_toolchain (stage_commands b)
    /\ base f = "node:20-bullseye-slim"
    /\ Forall (fun argv => invokes "apt-get" argv = false) (stage_commands f)
    /\ context_copies f = []
    /\ Forall (fun i : string * list string * string =>
                fst (fst i) = "build"
                /\ Forall (fun src => Text.starts_with "/app" src = true)
                          (snd (fst i)))
              (imports f)
    /\ head (imports f) = Some ("build", ["/app"], "/app").
Proof.
  intros Hdf. simpl in Hdf.
  destruct Hdf as [<- | [<- | []]]; eexists; eexists;
    (split; [vm_compute; reflexivity |]);
    repeat apply conj;
    first [ reflexivity
          | vm_compute; repeat constructor; fail
          | right; left; reflexivity ].
Qed.

Lemma guide_builds_two_stage_witness :
  exists b f,
    stages updated_Dockerfile = [b; f]
    /\ alias b = Some "build"
    /\ workdir b = Some "/app"
    /\ In apt_get_install_toolchain (stage_commands b)
    /\ base f = "node:20-bullseye-slim"
    /\ Forall (fun argv => invokes "apt-get" argv = false) (stage_commands f)
    /\ context_copies f = []
    /\ Forall (fun i : string * list string * string =>
                fst (fst i) = "build"
                /\ Forall (fun src => Text.starts_with "/app" src = true)
                          (snd (fst i)))
              (imports f)
    /\ head (imports f) = Some ("build", ["/app"], "/app").
Proof.
  apply (guide_builds_two_stage updated_Dockerfile).
  right; left; reflexivity.
Defined.

(** ** The account of the container process *)

(** C3, as stated, fails: the root Dockerfile has no USER instruction, so
    its process runs as the account of the base image, which for the
    official node image is root. *)
Lemma root_image_runs_as_base_user :
  In Dockerfile dockerfiles
  /\ (final_stage Dockerfile ≫= stage_user) = None
  /\ (forall base_user, run_as base_user Dockerfile = base_user)
  /\ run_as "root" Dockerfile = "root".
Proof.
  split; [left; reflexivity |].
  split; [reflexivity |].
  split; [intros base_user; reflexivity | reflexivity].
Qed.

(** C3, amended: in the final stage of both Dockerfiles of the guide the
    process runs as the account node, whatever account the base image
    runs as; node is not root. *)
Theorem guide_images_run_as_node (base_user : string) (df : dockerfile) :
  In df guide_dockerfiles ->
  run_as base_user df = "node" /\ run_as base_user df <> "root".
Proof.
  intros Hdf. simpl in Hdf.
  destruct Hdf as [<- | [<- | []]]; split;
    first [ reflexivity | vm_compute; discriminate ].
Qed.

Lemma guide_images_run_as_node_witness :
  run_as "root" updated_Dockerfile = "node"
  /\ run_as "root" updated_Dockerfile <> "root".
Proof.
  apply (guide_images_run_as_node "root" updated_Dockerfile).
  right; left; reflexivity.
Defined.

(** ** Which installs run, and which are pinned *)

Lemma frozen_only_trace (o : outcomes) (df : dockerfile) :
  In df [Dockerfile; packages_backend_Dockerfile] ->
  Forall (fun argv => Yarn.pinned argv = true) (trace (build o df 0)).
Proof.
  intros Hdf. simpl in Hdf.
  destruct Hdf as [<- | [<- | []]]; apply written_property; reflexivity.
Qed.

Lemma updated_trace_pinned_or_fallback (o : outcomes) :
  Forall (fun argv => Yarn.pinned argv = true \/ argv = yarn_install_fallback)
         (trace (build o updated_Dockerfile 0)).
Proof.
  pose proof (written_property
    (fun a => Yarn.pinned a || bool_decide (a = yarn_install_fallback))
    updated_Dockerfile eq_refl o 0) as H.
  eapply List.Forall_impl; [| exact H].
  intros a Ha. simpl in Ha. apply orb_true_iff in Ha.
  destruct Ha as [Ha | Ha]; [left; exact Ha | right].
  apply bool_decide_eq_true in Ha. exact Ha.
Qed.

Lemma fallback_follows_failure (o : outcomes) (k : nat) :
  trace (build o updated_Dockerfile 0) !! k = Some yarn_install_fallback ->
  exists j, k = S j
    /\ trace (build o updated_Dockerfile 0) !! j = Some yarn_install_first
    /\ o j = false.
Proof.
  build_paths o updated_Dockerfile; intros H; scan_trace H k;
    eexists; (split; [reflexivity |]); split; first [reflexivity | assumption].
Qed.

Lemma failure_runs_fallback (o : outcomes) (k : nat) :
  trace (build o updated_Dockerfile 0) !! k = Some yarn_install_first ->
  o k = false ->
  trace (build o updated_Dockerfile 0) !! S k = Some yarn_install_fallback.
Proof.
  build_paths o updated_Dockerfile; intros H Hk; scan_trace H k;
    first [reflexivity | congruence].
Qed.

Ltac leaf_installs o :=
  intros; try discriminate;
  cbn [installs_from]; use_outcomes o; vm_compute; reflexivity.

(** The install whose result a finished build carries. *)
Lemma root_last_install (o : outcomes) :
  status (build o Dockerfile 0) = true ->
  last_install o Dockerfile = Some yarn_install_frozen.
Proof.
  unfold last_install, installs_done.
  build_paths o Dockerfile; leaf_installs o.
Qed.

Lemma guide_last_install (o : outcomes) :
  status (build o packages_backend_Dockerfile 0) = true ->
  last_install o packages_backend_Dockerfile = Some yarn_install_production.
Proof.
  unfold last_install, installs_done.
  build_paths o packages_backend_Dockerfile; leaf_installs o.
Qed.

Lemma updated_last_install (o : outcomes) :
  status (build o updated_Dockerfile 0) = true ->
  last_install o updated_Dockerfile = Some yarn_install_runtime.
Proof.
  unfold last_install, installs_done.
  build_paths o updated_Dockerfile; leaf_installs o.
Qed.

Lemma last_install_frozen (o : outcomes) (df : dockerfile) :
  In df dockerfiles ->
  status (build o df 0) = true ->
  exists argv, last_install o df = Some argv /\ Yarn.frozen argv = true.
Proof.
  intros Hdf Hok. simpl in Hdf.
  destruct Hdf as [<- | [<- | [<- | []]]].
  - exists yarn_install_frozen. split; [apply root_last_install, Hok | reflexivity].
  - exists yarn_install_production. split; [apply guide_last_install, Hok | reflexivity].
  - exists yarn_install_runtime. split; [apply updated_last_install, Hok | reflexivity].
Qed.

(** C4, as stated, fails: not every installation path is pinned. When the
    first install of the updated Dockerfile's build stage fails (it is the
    fifth command), the build still succeeds, and it has run
    [yarn install --network-timeout 300000], which carries no
    [--frozen-lockfile]; under an installer whose unfrozen installs follow
    the registry, two such runs with the same sources install different
    versions in the build stage. *)
Lemma unpinned_fallback_runs :
  In updated_Dockerfile dockerfiles
  /\ status (build (fails_at 4) updated_Dockerfile 0) = true
  /\ trace (build (fails_at 4) updated_Dockerfile 0) !! 5 = Some yarn_install_fallback
  /\ Yarn.is_install yarn_install_fallback = true
  /\ Yarn.pinned yarn_install_fallback = false
  /\ installed follows_registry 0 (fails_at 4) updated_Dockerfile
     = [FromRegistry 0; FromLockfile]
  /\ installed follows_registry 1 (fails_at 4) updated_Dockerfile
     = [FromRegistry 1; FromLockfile].
Proof.
  split; [right; right; left; reflexivity |].
  repeat split; vm_compute; reflexivity.
Qed.

(** C4, amended: every install of the root Dockerfile and of the guide's
    first Dockerfile is pinned to the lockfile; in the updated Dockerfile
    every install is pinned except the fallback of the build stage, which
    runs exactly after the first, pinned, attempt has failed. The install a
    finished build carries is a pinned one in all three, so that, for any
    installer whose frozen installs do not depend on the registry, two
    finished builds of the same Dockerfile carry the same versions. *)
Theorem rebuild_agrees_on_pinned_installs
    {versions world : Type} (installs : world -> list string -> versions)
    (frozen_is_pinned : forall w1 w2 argv,
        Yarn.frozen argv = true -> installs w1 argv = installs w2 argv) :
  (forall o df, In df [Dockerfile; packages_backend_Dockerfile] ->
     Forall (fun argv => Yarn.pinned argv = true) (trace (build o df 0)))
  /\ (forall o,
        Forall (fun argv => Yarn.pinned argv = true \/ argv = yarn_install_fallback)
               (trace (build o updated_Dockerfile 0)))
  /\ (forall o k,
        trace (build o updated_Dockerfile 0) !! k = Some yarn_install_fallback ->
        exists j, k = S j
          /\ trace (build o updated_Dockerfile 0) !! j = Some yarn_install_first
          /\ o j = false)
  /\ (forall df o1 o2 w1 w2, In df dockerfiles ->
        status (build o1 df 0) = true ->
        status (build o2 df 0) = true ->
        is_Some (dependencies installs w1 o1 df)
        /\ dependencies installs w1 o1 df = dependencies installs w2 o2 df).
Proof.
  split; [intros o df; apply frozen_only_trace |].
  split; [exact updated_trace_pinned_or_fallback |].
  split; [exact fallback_follows_failure |].
  intros df o1 o2 w1 w2 Hdf H1 H2. unfold dependencies.
  destruct (last_install_frozen o1 df Hdf H1) as (a1 & L1 & F1).
  destruct (last_install_frozen o2 df Hdf H2) as (a2 & L2 & F2).
  assert (a1 = a2) as <-.
  { simpl in Hdf. destruct Hdf as [<- | [<- | [<- | []]]].
    - rewrite (root_last_install o1 H1) in L1.
      rewrite (root_last_install o2 H2) in L2. congruence.
    - rewrite (guide_last_install o1 H1) in L1.
      rewrite (guide_last_install o2 H2) in L2. congruence.
    - rewrite (updated_last_install o1 H1) in L1.
      rewrite (updated_last_install o2 H2) in L2. congruence. }
  rewrite L1, L2. simpl. split; [eexists; reflexivity |].
  f_equal. apply frozen_is_pinned. exact F1.
Qed.

Lemma follows_registry_frozen (w1 w2 : nat) (argv : list string) :
  Yarn.frozen argv = true -> follows_registry w1 argv = follows_registry w2 argv.
Proof. intros H. unfold follows_registry. rewrite H. reflexivity. Qed.

Lemma rebuild_agrees_on_pinned_installs_witness :
  dependencies follows_registry 0 all_ok updated_Dockerfile
  = dependencies follows_registry 1 (fails_at 4) updated_Dockerfile.
Proof.
  refine (proj2 (proj2 (proj2 (proj2
    (rebuild_agrees_on_pinned_installs follows_registry follows_registry_frozen)))
    updated_Dockerfile all_ok (fails_at 4) 0 1 _ _ _)).
  - right; right; left; reflexivity.
  - vm_compute; reflexivity.
  - vm_compute; reflexivity.
Defined.

(** ** C5: the retry of the dependency install *)



(** ** C7: the managed target *)



(** ** C10: the port the end-to-end tests address *)

(** C10: the base URL of the end-to-end tests is http://localhost:3000/,
    and so is the port of every URL made of it and a path; every
    Dockerfile exposes 7007 and nothing else, the backstage service
    publishes 7007 as 7007, and 3000 is no host port of the topology. *)
Theorem e2e_base_url_misses_exposed_port :
  baseUrl = Some "http://localhost:3000/"
  /\ (forall path, Url.port (String.append "http://localhost:3000/" path)
                   = Some 3000%N)
  /\ Url.host "http://localhost:3000/" = Some "localhost"
  /\ Forall (fun df => exposed df = [7007%N]) dockerfiles
  /\ published "backstage" = [(7007%N, 7007%N)]
  /\ host_ports = [5432%N; 7007%N]
  /\ ~ In 3000%N host_ports
  /\ 3000%N <> 7007%N.
Proof.
  split; [reflexivity |].
  split; [intros path; reflexivity |].
  split; [reflexivity |].
  split; [repeat constructor |].
  split; [reflexivity |].
  split; [reflexivity |].
  split; [| discriminate].
  vm_compute. intros [H | [H | []]]; discriminate H.
Qed.

(** * Further properties *)

(** ** Builds without a fallback *)



(** ** The toolchain step of the updated Dockerfile *)

Lemma exec_cases (P : run -> Prop) (o : outcomes) (c : command) (n : nat) :
  exec_k o c n P -> P (exec o c n).
Proof. rewrite exec_k_exec. trivial. Qed.

Ltac exec_paths o c n :=
  match goal with
  | |- context [exec o c n] =>
      pattern (exec o c n); apply exec_cases;
      unfold c; build_tree; split_outcomes o
  end.

Lemma install_toolchain_is_first_run :
  head (flat_map (fun i => match i with RUN c => [c] | _ => [] end)
                 updated_Dockerfile)
  = Some install_toolchain.
Proof. reflexivity. Qed.

(** X2: in the first [RUN] of the updated Dockerfile the [||] takes
    everything before it as its left side. So the step succeeds only after
    an install of git has succeeded and the apt lists were removed last;
    but when [apt-get update] fails the toolchain install is skipped, the
    step goes on with [sleep 10] and the second install of git, and it
    succeeds if these and the removal do. *)
Theorem toolchain_step_absorbs_failures (o : outcomes) (n : nat) :
  (status (exec o install_toolchain n) = true ->
     last (trace (exec o install_toolchain n)) = Some rm_apt_lists
     /\ exists k,
          trace (exec o install_toolchain n) !! k = Some apt_get_install_git
          /\ o (k + n) = true)
  /\ (o n = false ->
        trace (exec o install_toolchain n) !! 1 = Some sleep_10
        /\ ~ In apt_get_install_toolchain (trace (exec o install_toolchain n))
        /\ status (exec o install_toolchain n)
           = o (1 + n) && o (2 + n) && o (3 + n))
  /\ (o n = true -> o (1 + n) = true -> o (2 + n) = true ->
        trace (exec o install_toolchain n)
        = [apt_get_update; apt_get_install_toolchain; apt_get_install_git;
           rm_apt_lists]
        /\ status (exec o install_toolchain n) = o (3 + n)).
Proof.
  exec_paths o install_toolchain n; cbn [Nat.add]; repeat apply conj;
    intros; try discriminate; try congruence;
    repeat apply conj;
    try reflexivity;
    try (use_outcomes o; reflexivity);
    try (vm_compute; intros HIn;
         repeat (destruct HIn as [HIn | HIn]; [discriminate HIn |]);
         exact HIn);
    first [ exists 2; split; [reflexivity | assumption]
          | exists 3; split; [reflexivity | assumption]
          | exists 4; split; [reflexivity | assumption] ].
Qed.

(** ** Finished builds of the updated Dockerfile *)

Ltac in_range k :=
  repeat first [ lia | destruct k as [| k]; [first [assumption | lia] |] ].

Lemma updated_final_stage_commands :
  stage_commands <$> final_stage updated_Dockerfile
  = Some [tar_skeleton; rm_skeleton; yarn_install_runtime; rm_yarn_cache;
          tar_bundle; rm_bundle; chown_app].
Proof. reflexivity. Qed.

(** X3: every finished build of the updated Dockerfile ends with the
    commands of its final stage, all of them and in the order written, and
    each of them has succeeded: both archives are unpacked and removed,
    the production install has run with the lockfile frozen, and the files
    are handed to the account node. *)
Theorem finished_build_ran_final_stage (o : outcomes) :
  status (build o updated_Dockerfile 0) = true ->
  exists pre,
    Some (drop (length pre) (trace (build o updated_Dockerfile 0)))
    = stage_commands <$> final_stage updated_Dockerfile
    /\ trace (build o updated_Dockerfile 0)
       = pre ++ [tar_skeleton; rm_skeleton; yarn_install_runtime;
                 rm_yarn_cache; tar_bundle; rm_bundle; chown_app]
    /\ (forall k,
          length pre <= k < length (trace (build o updated_Dockerfile 0)) ->
          o k = true).
Proof.
  rewrite updated_final_stage_commands.
  build_paths o updated_Dockerfile; intros Hok; try discriminate Hok;
    match goal with
    | |- exists pre, _ /\ ?t = _ /\ _ => exists (take (length t - 7) t)
    end;
    (split; [vm_compute; reflexivity |]);
    (split; [vm_compute; reflexivity |]);
    intros k Hk; vm_compute in Hk; in_range k.
Qed.

Lemma finished_build_ran_final_stage_witness :
  exists pre,
    Some (drop (length pre) (trace (build (fails_at 4) updated_Dockerfile 0)))
    = stage_commands <$> final_stage updated_Dockerfile
    /\ trace (build (fails_at 4) updated_Dockerfile 0)
       = pre ++ [tar_skeleton; rm_skeleton; yarn_install_runtime;
                 rm_yarn_cache; tar_bundle; rm_bundle; chown_app]
    /\ (forall k,
          length pre <= k
          < length (trace (build (fails_at 4) updated_Dockerfile 0)) ->
          fails_at 4 k = true).
Proof.
  apply (finished_build_ran_final_stage (fails_at 4)).
  vm_compute. reflexivity.
Defined.

(** ** The failures a build gets over *)

Ltac scan_failures H Hk k :=
  repeat (destruct k as [| k];
          [ first [ congruence
                  | injection H as <-; simpl; auto 6 ]
          | cbn [lookup list_lookup] in H; try discriminate H ]).

Lemma finished_build_failures (o : outcomes) (k : nat) (cmd : list string) :
  status (build o updated_Dockerfile 0) = true ->
  trace (build o updated_Dockerfile 0) !! k = Some cmd ->
  o k = false ->
  In cmd [apt_get_update; apt_get_install_toolchain; apt_get_install_git;
          yarn_install_first].
Proof.
  build_paths o updated_Dockerfile; intros Hok H Hk; try discriminate Hok;
    scan_failures H Hk k.
Qed.

(** X12: among the simple commands a finished build of the updated
    Dockerfile has run, the commands its [RUN] lines join with [&&] and
    [||], four at most have failed, the ones an [||] stands behind:
    [apt-get update], the toolchain install, the first install of git and
    the first [yarn install]. None of the four holds a command
    substitution. The only commands the [RUN] lines hold besides their
    simple commands are the two substitutions [$(yarn cache dir)] in the
    arguments of [rm -rf]; the shell does not look at their exit status,
    and nothing is said of it here. *)
Theorem finished_build_tolerates_four
    (s : inputs) (o : outcomes) (k : nat) (cmd : list string) :
  status (build_with s o updated_Dockerfile 0 0) = true ->
  trace (build_with s o updated_Dockerfile 0 0) !! k = Some cmd ->
  o k = false ->
  In cmd [apt_get_update; apt_get_install_toolchain; apt_get_install_git;
          yarn_install_first]
  /\ substitutions cmd = []
  /\ flat_map substitutions (run_commands updated_Dockerfile)
     = [["yarn"; "cache"; "dir"]; ["yarn"; "cache"; "dir"]].
Proof.
  intros Hok.
  pose proof (build_with_finished s o updated_Dockerfile 0 0 Hok) as Hb.
  rewrite Hb in Hok. rewrite Hb. intros H Hk.
  pose proof (finished_build_failures o k cmd Hok H Hk) as Hin.
  split; [exact Hin |]. split; [| reflexivity].
  simpl in Hin.
  destruct Hin as [<- | [<- | [<- | [<- | []]]]]; reflexivity.
Qed.

Lemma finished_build_tolerates_four_witness :
  In yarn_install_first
     [apt_get_update; apt_get_install_toolchain; apt_get_install_git;
      yarn_install_first]
  /\ substitutions yarn_install_first = []
  /\ flat_map substitutions (run_commands updated_Dockerfile)
     = [["yarn"; "cache"; "dir"]; ["yarn"; "cache"; "dir"]].
Proof.
  apply (finished_build_tolerates_four all_there (fails_at 4) 4
           yarn_install_first);
    vm_compute; reflexivity.
Defined.
